(** * The [push] command of clasp: the synchronisation decision loop

    A shallow embedding of [src/commands/push.ts].  The command is an
    [async] function over a handful of collaborators (the project file
    service, the prompt, the console, the message formatter); it is
    embedded as a state-and-exception monad over a [State] that holds the
    one mutable variable of the closure ([force]), the subscription status
    and the trace of effects, with the collaborators' behaviour supplied by
    a [World]. *)

From Stdlib Require Import List String Ascii ZArith Bool Arith Lia DecimalString.
Import ListNotations.
Open Scope string_scope.

(** ** JavaScript values and array helpers *)

Module Js.

(** A value of type [boolean | undefined]: [None] is [undefined]. *)
Definition Boolish := option bool.

Definition undefined : Boolish := None.

(** [ToBoolean] on [boolean | undefined], as used by [!v] and [if (v)]. *)
Definition truthy (v : Boolish) : bool :=
  match v with
  | Some b => b
  | None => false
  end.

(** [Array.prototype.findIndex]: the index of the first element that
    satisfies [f], and [-1] when there is none. *)
Fixpoint findIndexFrom {A : Type} (f : A -> bool) (i : Z) (l : list A) : Z :=
  match l with
  | [] => (-1)%Z
  | x :: l' => if f x then i else findIndexFrom f (i + 1)%Z l'
  end.

Definition findIndex {A : Type} (f : A -> bool) (l : list A) : Z :=
  findIndexFrom f 0%Z l.

(** [a !== b] on numbers. *)
Definition strictNe (a b : Z) : bool := negb (a =? b)%Z.

End Js.

(** ** Message formatting *)

Module Icu.

(** The fragment of ICU MessageFormat the command's messages use: literal
    text and one [plural] argument, whose options are selected by an exact
    value ([=0]) or by a plural category, and inside which [#] stands for
    the number. *)
Inductive Selector : Type :=
| Exactly (n : nat)
| One
| Other.

Inductive Part : Type :=
| Chars (s : string)
| Pound.

Inductive Element : Type :=
| Literal (s : string)
| Plural (argument : string) (options : list (Selector * list Part)).

Definition Message := list Element.

Definition selector_eqb (a b : Selector) : bool :=
  match a, b with
  | Exactly n, Exactly m => Nat.eqb n m
  | One, One => true
  | Other, Other => true
  | _, _ => false
  end.

(** The cardinal plural rule of the default locale (English): [one] for 1,
    [other] for every other count. *)
Definition category (n : nat) : Selector :=
  if Nat.eqb n 1 then One else Other.

Fixpoint option_of (sel : Selector) (options : list (Selector * list Part))
  : option (list Part) :=
  match options with
  | [] => None
  | (k, body) :: rest =>
      if selector_eqb k sel then Some body else option_of sel rest
  end.

(** An exact match wins, then the count's category, then [other]. *)
Definition select (n : nat) (options : list (Selector * list Part)) : list Part :=
  match option_of (Exactly n) options with
  | Some body => body
  | None =>
      match option_of (category n) options with
      | Some body => body
      | None =>
          match option_of Other options with
          | Some body => body
          | None => []
          end
      end
  end.

Fixpoint lookup (name : string) (values : list (string * nat)) : option nat :=
  match values with
  | [] => None
  | (k, v) :: rest => if String.eqb k name then Some v else lookup name rest
  end.

Section Format.

(** The rendering of a number in place of [#] (the locale's number
    format). *)
Variable formatNumber : nat -> string.

Definition formatPart (n : nat) (p : Part) : string :=
  match p with
  | Chars s => s
  | Pound => formatNumber n
  end.

Definition formatParts (n : nat) (body : list Part) : string :=
  String.concat "" (map (formatPart n) body).

(** An argument the caller did not supply renders as nothing; every
    call of the command supplies the one argument its message has. *)
Definition formatElement (values : list (string * nat)) (e : Element) : string :=
  match e with
  | Literal s => s
  | Plural argument options =>
      match lookup argument values with
      | Some n => formatParts n (select n options)
      | None => ""
      end
  end.

(** Modelled from the spec: [intl.formatMessage] of [../intl.js], which is
    not among the sources.  The spec has the report pluralised as
    "no files" (0), "one file" (1), "{n} files" (n>1) by a pure function
    of the count; here the message of the source is rendered by the
    ICU rules above. *)
Definition formatMessage (defaultMessage : Message) (values : list (string * nat))
  : string :=
  String.concat "" (map (formatElement values) defaultMessage).

End Format.

End Icu.

(** ** Collaborators *)

(** A file of the project, as the file service reports it; the command reads
    its [localPath] only. *)
Record ProjectFile : Type := { localPath : string }.

(** How a promise settles. *)
Inductive Outcome (A : Type) : Type :=
| Resolved (value : A)
| Rejected (reason : string).

Arguments Resolved {A} value.
Arguments Rejected {A} reason.

(** Everything the command takes from outside itself. *)
Record World : Type := {
  (** [path.basename] of the platform. *)
  basename : string -> string;
  (** the number format behind [#] in a plural message. *)
  formatNumber : nat -> string;
  (** [isInteractive()] of [./utils.js]. *)
  isInteractive : bool;
  (** [answer.overwrite] of the k-th confirmation prompt shown. *)
  answers : nat -> bool;
  (** how the k-th call of [clasp.files.push()] settles. *)
  pushOutcomes : nat -> Outcome (list ProjectFile);
  (** what [clasp.files.getChangedFiles()] resolves to. *)
  changedFiles : Outcome (list ProjectFile);
  (** the change batches the notifier has to deliver, in order. *)
  batches : list (list string)
}.

(** ** Effects and state *)

Inductive Event : Type :=
| Log (line : string)          (* console.log(line) *)
| Prompt (message : string)    (* inquirer.prompt shown with this message *)
| Spinner (message : string)   (* withSpinner reports its status *)
| PushCall                     (* clasp.files.push() invoked *)
| Subscribe                    (* clasp.files.watchLocalFiles subscribed *)
| StopWatching.                (* the stop handle invoked *)

Record State : Type := {
  (** [let force = options.force] *)
  force : Js.Boolish;
  (** the effects so far, oldest first *)
  trace : list Event;
  (** the number of prompts shown so far *)
  prompted : nat;
  (** the number of [push()] calls so far *)
  pushed : nat;
  (** whether the subscription to the notifier is active *)
  watching : bool
}.

Definition emit (e : Event) (s : State) : State :=
  {| force := force s; trace := trace s ++ [e]; prompted := prompted s;
     pushed := pushed s; watching := watching s |}.

(** Several effects at once. *)
Definition emits (es : list Event) (s : State) : State :=
  {| force := force s; trace := trace s ++ es; prompted := prompted s;
     pushed := pushed s; watching := watching s |}.

Definition withForce (f : Js.Boolish) (s : State) : State :=
  {| force := f; trace := trace s; prompted := prompted s;
     pushed := pushed s; watching := watching s |}.

Definition withWatching (b : bool) (s : State) : State :=
  {| force := force s; trace := trace s; prompted := prompted s;
     pushed := pushed s; watching := b |}.

Definition nextPrompt (s : State) : State :=
  {| force := force s; trace := trace s; prompted := S (prompted s);
     pushed := pushed s; watching := watching s |}.

Definition nextPush (s : State) : State :=
  {| force := force s; trace := trace s; prompted := prompted s;
     pushed := S (pushed s); watching := watching s |}.

(** ** The monad of the [async] functions: state, and rejection *)

Definition M (A : Type) : Type := State -> Outcome A * State.

Definition ret {A : Type} (a : A) : M A := fun s => (Resolved a, s).

Definition bind {A B : Type} (m : M A) (k : A -> M B) : M B :=
  fun s =>
    match m s with
    | (Resolved a, s') => k a s'
    | (Rejected e, s') => (Rejected e, s')
    end.

Notation "x <- m ;; k" := (bind m (fun x => k))
  (at level 61, m at next level, right associativity).
Notation "m ;; k" := (bind m (fun _ => k))
  (at level 61, right associativity).

Definition get : M State := fun s => (Resolved s, s).
Definition modify (f : State -> State) : M unit := fun s => (Resolved tt, f s).

(** [console.log] *)
Definition consoleLog (line : string) : M unit := modify (emit (Log line)).

(** [files.forEach(f => ...)] *)
Fixpoint forEach {A : Type} (l : list A) (f : A -> M unit) : M unit :=
  match l with
  | [] => ret tt
  | x :: l' => f x ;; forEach l' f
  end.

(** ** The command *)

Module CommandOption.
(** [interface CommandOption]: both flags are optional. *)
Record t : Type := { watch : Js.Boolish; force : Js.Boolish }.
End CommandOption.

Section Push.

Variable w : World.

Definition formatMessage : Icu.Message -> list (string * nat) -> string :=
  Icu.formatMessage (formatNumber w).

(** [inquirer.prompt] with one [confirm] question: the prompt is shown and
    the user's answer comes back (a prompt that fails is outside the
    model). *)
Definition inquirerPrompt (message : string) : M bool :=
  fun s => (Resolved (answers w (prompted s)), nextPrompt (emit (Prompt message) s)).

(** [clasp.files.push()] *)
Definition filesPush : M (list ProjectFile) :=
  fun s => (pushOutcomes w (pushed s), nextPush (emit PushCall s)).

(** Modelled from the spec: [withSpinner] of [./utils.js], which is not among
    the sources.  The spec has a "pushing" status reported before the push
    starts, the push's result handed on, and its failure propagate. *)
Definition withSpinner {A : Type} (message : string) (fn : M A) : M A :=
  modify (emit (Spinner message)) ;; fn.

(** [confirmManifestUpdate] *)
Definition confirmManifestUpdate : M bool :=
  if negb (isInteractive w) then ret false
  else
    let prompt :=
      formatMessage
        [Icu.Literal "Manifest file has been updated. Do you want to push and overwrite?"]
        [] in
    answer <- inquirerPrompt prompt ;;
    ret answer.

(** [paths.findIndex(p => path.basename(p) === 'appsscript.json') !== -1] *)
Definition isManifestUpdated (paths : list string) : bool :=
  Js.strictNe
    (Js.findIndex (fun p => String.eqb (basename w p) "appsscript.json") paths)
    (-1)%Z.

(** The default message of the push report, as the source writes it. *)
Definition pushedMessage : Icu.Message :=
  [ Icu.Literal "Pushed ";
    Icu.Plural "count"
      [ (Icu.Exactly 0, [Icu.Chars "no files."]);
        (Icu.One, [Icu.Chars "one file."]);
        (Icu.Other, [Icu.Pound; Icu.Chars " files"]) ];
    Icu.Literal "." ].

(** Lines 52-71 of [onChange]: what follows the manifest check. *)
Definition pushAndReport : M Js.Boolish :=
  let spinnerMsg := formatMessage [Icu.Literal "Pushing files..."] [] in
  files <- withSpinner spinnerMsg filesPush ;;
  let successMessage := formatMessage pushedMessage [("count", List.length files)] in
  consoleLog successMessage ;;
  forEach files (fun f => consoleLog ("└─ " ++ localPath f)) ;;
  ret (Some true).

(** Lines 45-49 of [onChange]: the declined branch. *)
Definition skipPush : M Js.Boolish :=
  let msg := formatMessage [Icu.Literal "Skipping push."] [] in
  consoleLog msg ;;
  ret Js.undefined.

(** [onChange], one sync cycle. *)
Definition onChange (paths : list string) : M Js.Boolish :=
  s <- get ;;
  if isManifestUpdated paths && negb (Js.truthy (force s)) then
    confirmed <- confirmManifestUpdate ;;
    modify (withForce (Some confirmed)) ;;
    s' <- get ;;
    if negb (Js.truthy (force s')) then skipPush else pushAndReport
  else pushAndReport.

(** The manifest gate of the spec is lines 41-44 of [onChange]: the check,
    the confirmation, the assignment to [force] and the test that follows
    it.  It resolves to whether the cycle proceeds to the push. *)
Definition manifestGate (paths : list string) : M bool :=
  s <- get ;;
  if isManifestUpdated paths && negb (Js.truthy (force s)) then
    confirmed <- confirmManifestUpdate ;;
    modify (withForce (Some confirmed)) ;;
    s' <- get ;;
    if negb (Js.truthy (force s')) then ret false else ret true
  else ret true.

(** [onReady] *)
Definition onReady : M unit :=
  let msg := formatMessage [Icu.Literal "Waiting for changes..."] [] in
  consoleLog msg.

(** The stop handle that [watchLocalFiles] resolves to. *)
Definition stopWatching : M unit :=
  modify (fun s => withWatching false (emit StopWatching s)).

(** The callback the command hands to [watchLocalFiles]. *)
Definition onFilesChanged (paths : list string) : M unit :=
  r <- onChange paths ;;
  if negb (Js.truthy r) then stopWatching else ret tt.

(** Modelled from the spec: the notifier behind [clasp.files.watchLocalFiles]
    ([../core/clasp.js] is not among the sources).  Batches are handed to
    the callback one at a time; after a batch, a cancelled subscription
    receives nothing more, and one that remains active is told the
    watcher is idle through [onReady].  A rejection of the callback is not
    handled and ends the session. *)
Fixpoint deliver (ready : M unit) (changed : list string -> M unit)
    (pending : list (list string)) : M unit :=
  match pending with
  | [] => ret tt
  | paths :: later =>
      changed paths ;;
      s <- get ;;
      if watching s then ready ;; deliver ready changed later else ret tt
  end.

Definition watchLocalFiles (ready : M unit) (changed : list string -> M unit) : M unit :=
  modify (fun s => withWatching true (emit Subscribe s)) ;;
  deliver ready changed (batches w).

(** Lines 74-83: the cycle on the pending change set. *)
Definition initialCycle : M unit :=
  pendingChanges <- (fun s => (changedFiles w, s)) ;;
  if negb (Nat.eqb (List.length pendingChanges) 0) then
    let paths := map localPath pendingChanges in
    onChange paths ;;
    ret tt
  else
    let msg := formatMessage [Icu.Literal "Script is already up to date."] [] in
    consoleLog msg.

(** The action of the [push] command, from line 74 on. *)
Definition action (watch : Js.Boolish) : M unit :=
  initialCycle ;;
  if negb (Js.truthy watch) then ret tt
  else watchLocalFiles onReady onFilesChanged.

(** The closure's variables at line 38. *)
Definition start (options : CommandOption.t) : State :=
  {| force := CommandOption.force options; trace := []; prompted := 0;
     pushed := 0; watching := false |}.

Definition command (options : CommandOption.t) : Outcome unit * State :=
  action (CommandOption.watch options) (start options).

(** A run of sync cycles, one per batch, whatever each returns: every
    sequence of cycles of a session is such a run. *)
Fixpoint cycles (bs : list (list string)) (s : State) : State :=
  match bs with
  | [] => s
  | paths :: later => cycles later (snd (onChange paths s))
  end.

End Push.

(** ** A concrete platform, for running the model *)

(** [path.posix.basename]: trailing separators are dropped, and the base name
    is what follows the last separator left. *)
Definition slash : ascii := "/"%char.

Fixpoint dropSlashes (l : list ascii) : list ascii :=
  match l with
  | c :: l' => if Ascii.eqb c slash then dropSlashes l' else l
  | [] => []
  end.

Fixpoint takeName (l : list ascii) : list ascii :=
  match l with
  | c :: l' => if Ascii.eqb c slash then [] else c :: takeName l'
  | [] => []
  end.

Definition posixBasename (p : string) : string :=
  string_of_list_ascii
    (rev (takeName (dropSlashes (rev (list_ascii_of_string p))))).

(** Decimal digits, without grouping. *)
Definition digits (n : nat) : string :=
  NilEmpty.string_of_uint (Nat.to_uint n).

Definition file (p : string) : ProjectFile := {| localPath := p |}.

Definition world (interactive : bool) (answer : nat -> bool)
    (pushes : nat -> Outcome (list ProjectFile))
    (changed : Outcome (list ProjectFile)) (later : list (list string)) : World :=
  {| basename := posixBasename; formatNumber := digits;
     isInteractive := interactive; answers := answer; pushOutcomes := pushes;
     changedFiles := changed; batches := later |}.

(** Computations that leave a true force flag as it is. *)
Definition keepsForce {A : Type} (m : M A) : Prop :=
  forall s, Js.truthy (force s) = true -> force (snd (m s)) = force s.

(** ** Reading a trace *)

Definition isPrompt (e : Event) : bool :=
  match e with Prompt _ => true | _ => false end.

Definition isPushCall (e : Event) : bool :=
  match e with PushCall => true | _ => false end.

Definition isSubscribe (e : Event) : bool :=
  match e with Subscribe => true | _ => false end.

Definition isStopWatching (e : Event) : bool :=
  match e with StopWatching => true | _ => false end.

(** How many events of a kind a trace holds. *)
Definition count (p : Event -> bool) (es : list Event) : nat :=
  List.length (filter p es).

(** Computations every run of which relates the state it starts from to
    the state it ends in. *)
Definition steps {A : Type} (R : State -> State -> Prop) (m : M A) : Prop :=
  forall s, R s (snd (m s)).

(** * Properties *)

(** ** The manifest check *)

Lemma findIndexFrom_spec {A : Type} (f : A -> bool) (l : list A) :
  forall i : Z, (0 <= i)%Z ->
    if existsb f l then (i <= Js.findIndexFrom f i l)%Z
    else Js.findIndexFrom f i l = (-1)%Z.
Proof.
  induction l as [|x l IH]; intros i Hi; simpl.
  - reflexivity.
  - destruct (f x); simpl.
    + lia.
    + specialize (IH (i + 1)%Z ltac:(lia)).
      destruct (existsb f l); [lia | exact IH].
Qed.

Lemma isManifestUpdated_existsb (w : World) (paths : list string) :
  isManifestUpdated w paths
  = existsb (fun p => String.eqb (basename w p) "appsscript.json") paths.
Proof.
  unfold isManifestUpdated, Js.findIndex, Js.strictNe.
  pose proof (findIndexFrom_spec
                (fun p => String.eqb (basename w p) "appsscript.json") paths 0%Z
                (Z.le_refl 0)) as H.
  destruct (existsb _ paths).
  - destruct (Z.eqb_spec
                (Js.findIndexFrom
                   (fun p => String.eqb (basename w p) "appsscript.json") 0 paths)
                (-1)); [lia | reflexivity].
  - rewrite H. reflexivity.
Qed.

Lemma isManifestUpdated_true (w : World) (paths : list string) :
  isManifestUpdated w paths = true <->
  exists p, In p paths /\ basename w p = "appsscript.json".
Proof.
  rewrite isManifestUpdated_existsb, existsb_exists.
  split; intros [p [Hin Hp]]; exists p; split; auto.
  - now apply String.eqb_eq.
  - now apply String.eqb_eq.
Qed.

Lemma isManifestUpdated_false (w : World) (paths : list string) :
  isManifestUpdated w paths = false <->
  forall p, In p paths -> basename w p <> "appsscript.json".
Proof.
  split.
  - intros H p Hin Hp.
    assert (isManifestUpdated w paths = true) as Ht
        by (apply isManifestUpdated_true; eauto).
    congruence.
  - intros H. destruct (isManifestUpdated w paths) eqn:E; [|reflexivity].
    apply isManifestUpdated_true in E. destruct E as [p [Hin Hp]].
    exfalso. exact (H p Hin Hp).
Qed.

(** ** The gate inside the cycle *)

Ltac run := unfold bind, get, modify, ret; simpl.

(** [onChange] is the gate followed by the push or by the skip. *)
Lemma onChange_gate (w : World) (paths : list string) (s : State) :
  onChange w paths s
  = (proceed <- manifestGate w paths ;;
     if proceed then pushAndReport w else skipPush w) s.
Proof.
  unfold onChange, manifestGate. run.
  destruct (isManifestUpdated w paths && negb (Js.truthy (force s))); [|reflexivity].
  destruct (confirmManifestUpdate w s) as [[confirmed|e] s1]; [|reflexivity].
  simpl. destruct confirmed; reflexivity.
Qed.

Lemma gate_open (w : World) (paths : list string) (s : State) :
  isManifestUpdated w paths && negb (Js.truthy (force s)) = false ->
  manifestGate w paths s = (Resolved true, s).
Proof.
  intros H. unfold manifestGate. run. rewrite H. reflexivity.
Qed.

(** The three ways the gate can go. *)
Lemma gate_cases (w : World) (paths : list string) (s : State) :
  (isManifestUpdated w paths && negb (Js.truthy (force s)) = false /\
   manifestGate w paths s = (Resolved true, s)) \/
  (isManifestUpdated w paths = true /\ Js.truthy (force s) = false /\
   isInteractive w = false /\
   manifestGate w paths s = (Resolved false, withForce (Some false) s)) \/
  (isManifestUpdated w paths = true /\ Js.truthy (force s) = false /\
   isInteractive w = true /\
   manifestGate w paths s
   = (Resolved (answers w (prompted s)),
      withForce (Some (answers w (prompted s)))
        (nextPrompt
           (emit (Prompt "Manifest file has been updated. Do you want to push and overwrite?")
              s)))).
Proof.
  destruct (isManifestUpdated w paths && negb (Js.truthy (force s))) eqn:E.
  - apply andb_true_iff in E. destruct E as [Em Ef].
    apply negb_true_iff in Ef. right.
    unfold manifestGate, confirmManifestUpdate. run. rewrite Em, Ef. simpl.
    destruct (isInteractive w) eqn:Ei; simpl.
    + right. repeat split; auto.
      unfold inquirerPrompt. run.
      destruct (answers w (prompted s)); reflexivity.
    + left. repeat split; auto.
  - left. split; [reflexivity | now apply gate_open].
Qed.

Lemma onChange_open (w : World) (paths : list string) (s : State) :
  isManifestUpdated w paths && negb (Js.truthy (force s)) = false ->
  onChange w paths s = pushAndReport w s.
Proof.
  intros E. rewrite onChange_gate. unfold bind. now rewrite (gate_open _ _ _ E).
Qed.

(** C2: a batch that names no manifest, or a force flag that is already
    true, opens the gate: it resolves to proceed, and the state comes back
    as it was, so no prompt was shown and the force flag is unchanged; the
    cycle is then the push and its report. *)
Theorem gate_open_without_manifest_or_with_force
    (w : World) (paths : list string) (s : State) :
  (forall p, In p paths -> basename w p <> "appsscript.json") \/ force s = Some true ->
  manifestGate w paths s = (Resolved true, s) /\
  onChange w paths s = pushAndReport w s.
Proof.
  intros H.
  assert (isManifestUpdated w paths && negb (Js.truthy (force s)) = false) as E.
  { destruct H as [H|H].
    - apply isManifestUpdated_false in H. now rewrite H.
    - rewrite H. apply andb_false_r. }
  split; [now apply gate_open | now apply onChange_open].
Qed.

(** C3: with the manifest in the batch, the force flag false (or unset) and
    a non-interactive environment, the gate resolves to not proceeding; the
    trace and the prompt count are those of the state it started from, so
    no prompt was shown. *)
Theorem gate_declines_when_not_interactive
    (w : World) (paths : list string) (s : State) :
  (exists p, In p paths /\ basename w p = "appsscript.json") ->
  Js.truthy (force s) = false ->
  isInteractive w = false ->
  manifestGate w paths s = (Resolved false, withForce (Some false) s) /\
  trace (snd (manifestGate w paths s)) = trace s /\
  prompted (snd (manifestGate w paths s)) = prompted s.
Proof.
  intros Hm Hf Hi. apply isManifestUpdated_true in Hm.
  destruct (gate_cases w paths s) as [[E _]|[[_ [_ [_ G]]]|[_ [_ [Hi' _]]]]].
  - rewrite Hm, Hf in E. discriminate.
  - rewrite G. auto.
  - congruence.
Qed.

(** ** The push and its report *)

Lemma emits_nil (s : State) : emits [] s = s.
Proof. destruct s. unfold emits. simpl. now rewrite app_nil_r. Qed.

Lemma emits_emit (e : Event) (es : list Event) (s : State) :
  emits es (emit e s) = emits (e :: es) s.
Proof. unfold emits, emit. simpl. now rewrite <- app_assoc. Qed.

Lemma trace_emits (es : list Event) (s : State) :
  trace (emits es s) = (trace s ++ es)%list.
Proof. reflexivity. Qed.

Lemma trace_emit (e : Event) (s : State) : trace (emit e s) = (trace s ++ [e])%list.
Proof. reflexivity. Qed.

Lemma trace_nextPush (s : State) : trace (nextPush s) = trace s.
Proof. reflexivity. Qed.

Lemma forEach_log {A : Type} (g : A -> string) (l : list A) (s : State) :
  forEach l (fun x => consoleLog (g x)) s
  = (Resolved tt, emits (map (fun x => Log (g x)) l) s).
Proof.
  revert s. induction l as [|x l IH]; intros s; simpl.
  - now rewrite emits_nil.
  - unfold bind, consoleLog, modify. rewrite IH. now rewrite emits_emit.
Qed.

Lemma string_app_assoc (a b c : string) : (a ++ b) ++ c = a ++ (b ++ c).
Proof. induction a as [|x a IH]; simpl; [reflexivity | now rewrite IH]. Qed.

(** The report line of a push of [n] files. *)
Lemma pushedMessage_line (w : World) (n : nat) :
  formatMessage w pushedMessage [("count", n)]
  = match n with
    | 0 => "Pushed no files.."
    | 1 => "Pushed one file.."
    | S (S k) => "Pushed " ++ formatNumber w (S (S k)) ++ " files."
    end.
Proof.
  destruct n as [|[|n]]; try reflexivity.
  unfold formatMessage, Icu.formatMessage, pushedMessage. simpl.
  unfold Icu.formatParts. simpl.
  now rewrite string_app_assoc.
Qed.

(** The push, from the spinner to the last line of the report. *)
Lemma pushAndReport_run (w : World) (s : State) :
  pushAndReport w s
  = match pushOutcomes w (pushed s) with
    | Resolved files =>
        (Resolved (Some true),
         emits (Log (formatMessage w pushedMessage [("count", List.length files)])
                  :: map (fun f => Log ("└─ " ++ localPath f)) files)
           (nextPush (emit PushCall (emit (Spinner "Pushing files...") s))))
    | Rejected e =>
        (Rejected e, nextPush (emit PushCall (emit (Spinner "Pushing files...") s)))
    end.
Proof.
  unfold pushAndReport, withSpinner, filesPush, bind. simpl.
  destruct (pushOutcomes w (pushed s)) as [files|e]; [|reflexivity].
  rewrite forEach_log. simpl. now rewrite emits_emit.
Qed.

(** C4: when the gate resolves to not proceeding, the cycle logs
    "Skipping push." and resolves to [undefined], which the watcher's
    callback reads as false; the trace grows by at most the prompt and by
    the skip line, with no call of the push, and the count of pushes is
    the one before the cycle. *)
Theorem declined_cycle_skips_the_push
    (w : World) (paths : list string) (s s' : State) :
  manifestGate w paths s = (Resolved false, s') ->
  onChange w paths s = (Resolved Js.undefined, emit (Log "Skipping push.") s') /\
  Js.truthy Js.undefined = false /\
  pushed (emit (Log "Skipping push.") s') = pushed s /\
  exists shown,
    trace (emit (Log "Skipping push.") s')
    = (trace s ++ shown ++ [Log "Skipping push."])%list /\
    ~ In PushCall (shown ++ [Log "Skipping push."])%list.
Proof.
  intros G. split; [|split; [reflexivity|]].
  - rewrite onChange_gate. unfold bind. rewrite G. reflexivity.
  - destruct (gate_cases w paths s) as [[_ G']|[[_ [_ [_ G']]]|[_ [_ [_ G']]]]];
      rewrite G' in G;
      [discriminate G | injection G as Hs' | injection G as _ Hs']; subst s'.
    + split; [reflexivity|]. exists []. split; [reflexivity|].
      simpl. intros [H|[]]. discriminate.
    + split; [reflexivity|].
      exists [Prompt "Manifest file has been updated. Do you want to push and overwrite?"].
      split.
      * simpl. now rewrite <- app_assoc.
      * simpl. intros [H|[H|[]]]; discriminate.
Qed.

Lemma resolved_push_run
    (w : World) (paths : list string) (s s' : State) (files : list ProjectFile) :
  manifestGate w paths s = (Resolved true, s') ->
  pushOutcomes w (pushed s') = Resolved files ->
  let s'' :=
    emits (Log (formatMessage w pushedMessage [("count", List.length files)])
             :: map (fun f => Log ("└─ " ++ localPath f)) files)
      (nextPush (emit PushCall (emit (Spinner "Pushing files...") s'))) in
  onChange w paths s = (Resolved (Some true), s'') /\
  trace s''
  = (trace s'
     ++ [Spinner "Pushing files..."; PushCall;
         Log (match List.length files with
              | 0 => "Pushed no files.."
              | 1 => "Pushed one file.."
              | S (S k) => "Pushed " ++ formatNumber w (S (S k)) ++ " files."
              end)%string]
     ++ map (fun f => Log ("└─ " ++ localPath f)%string) files)%list.
Proof.
  intros G P s''. subst s''. split.
  - rewrite onChange_gate. unfold bind. rewrite G.
    now rewrite pushAndReport_run, P.
  - rewrite pushedMessage_line.
    rewrite trace_emits, trace_nextPush, !trace_emit, <- !app_assoc. reflexivity.
Qed.

(** C7: when the gate lets the cycle through and the push resolves to
    [files], the cycle resolves to [true] and the trace grows by the
    spinner, the push, the report line for the number of files ("no files"
    for 0, "one file" for 1, the count and "files" above 1) and then one
    line per file with its local path, in the order the push gave. *)
Theorem push_report_counts_and_lists_files
    (w : World) (paths : list string) (s s' : State) (files : list ProjectFile) :
  manifestGate w paths s = (Resolved true, s') ->
  pushOutcomes w (pushed s') = Resolved files ->
  exists s'',
    onChange w paths s = (Resolved (Some true), s'') /\
    trace s''
    = (trace s'
       ++ [Spinner "Pushing files..."; PushCall;
           Log (match List.length files with
                | 0 => "Pushed no files.."
                | 1 => "Pushed one file.."
                | S (S k) => "Pushed " ++ formatNumber w (S (S k)) ++ " files."
                end)%string]
       ++ map (fun f => Log ("└─ " ++ localPath f)%string) files)%list /\
    pushed s'' = S (pushed s').
Proof.
  intros G P.
  destruct (resolved_push_run w paths s s' files G P) as [C T].
  eexists. split; [exact C|]. split; [exact T|reflexivity].
Qed.

(** C8: when the gate lets the cycle through and the push is rejected, the
    cycle is rejected with the same reason; the push was called once, and
    nothing is logged after it.  The watcher's callback is rejected
    likewise. *)
Theorem push_failure_propagates
    (w : World) (paths : list string) (s s' : State) (e : string) :
  manifestGate w paths s = (Resolved true, s') ->
  pushOutcomes w (pushed s') = Rejected e ->
  exists s'',
    onChange w paths s = (Rejected e, s'') /\
    onFilesChanged w paths s = (Rejected e, s'') /\
    trace s'' = (trace s' ++ [Spinner "Pushing files..."; PushCall])%list /\
    pushed s'' = S (pushed s').
Proof.
  intros G P.
  assert (onChange w paths s
          = (Rejected e, nextPush (emit PushCall (emit (Spinner "Pushing files...") s'))))
    as H.
  { rewrite onChange_gate. unfold bind. rewrite G.
    now rewrite pushAndReport_run, P. }
  eexists. split; [exact H|]. split.
  - unfold onFilesChanged, bind. now rewrite H.
  - split; [|reflexivity]. simpl. now rewrite <- app_assoc.
Qed.

Lemma gate_keeps_watching (w : World) (paths : list string) (s : State) :
  watching (snd (manifestGate w paths s)) = watching s.
Proof.
  destruct (gate_cases w paths s) as [[_ G]|[[_ [_ [_ G]]]|[_ [_ [_ G]]]]];
    rewrite G; reflexivity.
Qed.

(** C9: a push that resolves to no files is a success like any other: the
    cycle logs the report for a count of zero and resolves to [true]; the
    watcher's callback does not call the stop handle, the subscription
    stays as it was, and an active session goes on to [onReady] and to the
    batches that follow. *)
Theorem empty_push_is_a_success
    (w : World) (paths : list string) (later : list (list string)) (s s' : State) :
  manifestGate w paths s = (Resolved true, s') ->
  pushOutcomes w (pushed s') = Resolved [] ->
  watching s = true ->
  exists s'',
    onChange w paths s = (Resolved (Some true), s'') /\
    trace s''
    = (trace s' ++ [Spinner "Pushing files..."; PushCall; Log "Pushed no files.."])%list /\
    onFilesChanged w paths s = (Resolved tt, s'') /\
    watching s'' = true /\
    deliver (onReady w) (onFilesChanged w) (paths :: later) s
    = (onReady w ;; deliver (onReady w) (onFilesChanged w) later) s''.
Proof.
  intros G P W.
  destruct (resolved_push_run w paths s s' [] G P)
    as [C T].
  pose proof (gate_keeps_watching w paths s) as K. rewrite G in K. simpl in K.
  eexists. split; [exact C|]. split; [exact T|].
  assert (onFilesChanged w paths s
          = (Resolved tt,
             emits [Log (formatMessage w pushedMessage [("count", 0)])]
               (nextPush (emit PushCall (emit (Spinner "Pushing files...") s')))))
    as F by (unfold onFilesChanged, bind; rewrite C; reflexivity).
  split; [exact F|]. split.
  - simpl. congruence.
  - simpl. unfold bind at 1. rewrite F. unfold bind at 1, get. simpl.
    rewrite K, W. reflexivity.
Qed.

(** ** The force flag *)

(** C10: on a batch that names no manifest, two cycles that start from states
    differing in the force flag only (true, false or unset) settle alike
    and leave the same trace, prompt count, push count and subscription;
    each leaves its own force flag as it found it. *)
Theorem force_is_irrelevant_without_manifest
    (w : World) (paths : list string) (s : State) (f1 f2 : Js.Boolish) :
  (forall p, In p paths -> basename w p <> "appsscript.json") ->
  let r1 := onChange w paths (withForce f1 s) in
  let r2 := onChange w paths (withForce f2 s) in
  fst r1 = fst r2 /\
  trace (snd r1) = trace (snd r2) /\
  prompted (snd r1) = prompted (snd r2) /\
  pushed (snd r1) = pushed (snd r2) /\
  watching (snd r1) = watching (snd r2) /\
  force (snd r1) = f1 /\ force (snd r2) = f2.
Proof.
  intros H r1 r2. subst r1 r2.
  apply isManifestUpdated_false in H.
  rewrite !onChange_open by now rewrite H.
  rewrite !pushAndReport_run. simpl.
  destruct (pushOutcomes w (pushed s)); simpl; repeat split; reflexivity.
Qed.

(** What follows the gate leaves the force flag and the prompt count alone. *)
Lemma after_gate_keeps (w : World) (proceed : bool) (s : State) :
  let s' := snd ((if proceed then pushAndReport w else skipPush w) s) in
  force s' = force s /\ prompted s' = prompted s /\ watching s' = watching s.
Proof.
  destruct proceed; simpl.
  - rewrite pushAndReport_run. destruct (pushOutcomes w (pushed s)); simpl; auto.
  - auto.
Qed.

(** One cycle: the force flag stays when it is true, and turns true only
    through a prompt that was answered yes. *)
Lemma onChange_force (w : World) (paths : list string) (s : State) :
  let s' := snd (onChange w paths s) in
  prompted s <= prompted s' /\
  (Js.truthy (force s) = true -> force s' = force s) /\
  (Js.truthy (force s) = false -> Js.truthy (force s') = true ->
   isInteractive w = true /\ answers w (prompted s) = true /\
   prompted s' = S (prompted s)).
Proof.
  intros s'. subst s'. rewrite onChange_gate. unfold bind.
  destruct (gate_cases w paths s) as [[E G]|[[_ [Hf [_ G]]]|[_ [Hf [Hi G]]]]];
    rewrite G; cbv beta iota.
  - destruct (after_gate_keeps w true s) as [Kf [Kp _]]. cbv beta iota in Kf, Kp.
    rewrite Kf, Kp. repeat split; auto; intros; congruence.
  - destruct (after_gate_keeps w false (withForce (Some false) s)) as [Kf [Kp _]].
    cbv beta iota in Kf, Kp. rewrite Kf, Kp. simpl.
    repeat split; auto; intros; congruence.
  - match goal with
    | |- context [(if ?b then pushAndReport w else skipPush w) ?t] =>
        destruct (after_gate_keeps w b t) as [Kf [Kp _]]
    end.
    rewrite Kf, Kp. simpl.
    repeat split; auto; intros; congruence.
Qed.

Lemma cycles_app (w : World) (bs later : list (list string)) (s : State) :
  cycles w (bs ++ later) s = cycles w later (cycles w bs s).
Proof.
  revert s. induction bs as [|paths bs IH]; intros s; simpl; [reflexivity | apply IH].
Qed.

Lemma cycles_keep_force (w : World) (bs : list (list string)) :
  forall s, Js.truthy (force s) = true -> force (cycles w bs s) = force s.
Proof.
  induction bs as [|paths bs IH]; intros s H; simpl; [reflexivity|].
  destruct (onChange_force w paths s) as [_ [K _]].
  rewrite IH; rewrite (K H); auto.
Qed.

Lemma cycles_prompted (w : World) (bs : list (list string)) :
  forall s, prompted s <= prompted (cycles w bs s).
Proof.
  induction bs as [|paths bs IH]; intros s; simpl; [lia|].
  destruct (onChange_force w paths s) as [L _].
  specialize (IH (snd (onChange w paths s))). lia.
Qed.

Lemma cycles_upgrade (w : World) (bs : list (list string)) :
  forall s,
    Js.truthy (force s) = false ->
    Js.truthy (force (cycles w bs s)) = true ->
    isInteractive w = true /\
    exists k, prompted s <= k < prompted (cycles w bs s) /\ answers w k = true.
Proof.
  induction bs as [|paths bs IH]; intros s Hf Ht; simpl in *; [congruence|].
  destruct (onChange_force w paths s) as [L [_ U]].
  destruct (Js.truthy (force (snd (onChange w paths s)))) eqn:E.
  - destruct (U Hf eq_refl) as [Hi [Ha Hp]]. split; [exact Hi|].
    exists (prompted s). split; [|exact Ha].
    pose proof (cycles_prompted w bs (snd (onChange w paths s))). lia.
  - destruct (IH _ E Ht) as [Hi [k [Hk Ha]]]. split; [exact Hi|].
    exists k. split; [lia | exact Ha].
Qed.

Lemma keepsForce_bind {A B : Type} (m : M A) (k : A -> M B) :
  keepsForce m -> (forall a, keepsForce (k a)) -> keepsForce (bind m k).
Proof.
  intros Hm Hk s H. unfold bind. specialize (Hm s H).
  destruct (m s) as [[a|e] s1]; simpl in *; [|exact Hm].
  rewrite <- Hm. apply Hk. congruence.
Qed.

Lemma keepsForce_ret {A : Type} (a : A) : keepsForce (ret a).
Proof. intros s _. reflexivity. Qed.

Lemma keepsForce_onChange (w : World) (paths : list string) :
  keepsForce (onChange w paths).
Proof. intros s H. now apply (onChange_force w paths s). Qed.

Lemma keepsForce_onFilesChanged (w : World) (paths : list string) :
  keepsForce (onFilesChanged w paths).
Proof.
  apply keepsForce_bind; [apply keepsForce_onChange|].
  intros r. destruct (negb (Js.truthy r)); intros s _; reflexivity.
Qed.

Lemma keepsForce_deliver (w : World) (pending : list (list string)) :
  keepsForce (deliver (onReady w) (onFilesChanged w) pending).
Proof.
  induction pending as [|paths later IH]; simpl; [apply keepsForce_ret|].
  apply keepsForce_bind; [apply keepsForce_onFilesChanged|]. intros _.
  apply keepsForce_bind; [intros s _; reflexivity|]. intros s0.
  destruct (watching s0); [|apply keepsForce_ret].
  apply keepsForce_bind; [intros s _; reflexivity | intros _; exact IH].
Qed.

Lemma keepsForce_action (w : World) (watch : Js.Boolish) : keepsForce (action w watch).
Proof.
  apply keepsForce_bind.
  - apply keepsForce_bind; [intros s _; reflexivity|]. intros pending.
    destruct (negb (Nat.eqb (List.length pending) 0)).
    + apply keepsForce_bind; [apply keepsForce_onChange | intros _; apply keepsForce_ret].
    + intros s _. reflexivity.
  - intros _. destruct (negb (Js.truthy watch)); [apply keepsForce_ret|].
    apply keepsForce_bind; [intros s _; reflexivity|]. intros _.
    apply keepsForce_deliver.
Qed.

(** C5: over any run of cycles the force flag is monotone.  A flag that is
    true is the same after the run; a flag that was false or unset and is
    true after the run was made so in an interactive environment by a
    prompt of that run that was answered yes; once true at some point of
    a run it is the same after every longer run; and a command started
    with the force option is still forced when its session ends. *)
Theorem force_is_monotone (w : World) (bs : list (list string)) (s : State) :
  (Js.truthy (force s) = true -> force (cycles w bs s) = force s) /\
  (Js.truthy (force s) = false -> Js.truthy (force (cycles w bs s)) = true ->
   isInteractive w = true /\
   exists k, prompted s <= k < prompted (cycles w bs s) /\ answers w k = true) /\
  (forall later,
      Js.truthy (force (cycles w bs s)) = true ->
      force (cycles w (bs ++ later) s) = force (cycles w bs s)) /\
  (forall o,
      Js.truthy (CommandOption.force o) = true ->
      force (snd (command w o)) = CommandOption.force o).
Proof.
  split; [apply cycles_keep_force|].
  split; [apply cycles_upgrade|].
  split.
  - intros later H. rewrite cycles_app. now apply cycles_keep_force.
  - intros o H. unfold command.
    now rewrite (keepsForce_action w (CommandOption.watch o) (start o) H).
Qed.

(** ** The command and the watch session *)

(** C6: with no pending change the first cycle logs
    "Script is already up to date." and does nothing else; without the watch
    option that line is the whole trace of the command and no push was
    called, and with it the command goes on to subscribe from there. *)
Theorem up_to_date_without_push (w : World) (o : CommandOption.t) :
  changedFiles w = Resolved [] ->
  initialCycle w (start o)
  = (Resolved tt, emit (Log "Script is already up to date.") (start o)) /\
  trace (emit (Log "Script is already up to date.") (start o))
  = [Log "Script is already up to date."] /\
  pushed (emit (Log "Script is already up to date.") (start o)) = 0 /\
  command w o
  = if Js.truthy (CommandOption.watch o)
    then watchLocalFiles w (onReady w) (onFilesChanged w)
           (emit (Log "Script is already up to date.") (start o))
    else (Resolved tt, emit (Log "Script is already up to date.") (start o)).
Proof.
  intros H.
  assert (initialCycle w (start o)
          = (Resolved tt, emit (Log "Script is already up to date.") (start o))) as I.
  { unfold initialCycle, bind. rewrite H. reflexivity. }
  split; [exact I|]. split; [reflexivity|]. split; [reflexivity|].
  unfold command, action, bind. rewrite I.
  destruct (Js.truthy (CommandOption.watch o)); reflexivity.
Qed.

(** A batch of the watcher on which the gate declines: the callback calls
    the stop handle, and the batches that follow are not processed. *)
Lemma declined_batch_stops_watching
    (w : World) (paths : list string) (later : list (list string)) (s s' : State) :
  manifestGate w paths s = (Resolved false, s') ->
  deliver (onReady w) (onFilesChanged w) (paths :: later) s
  = (Resolved tt, withWatching false (emit StopWatching (emit (Log "Skipping push.") s'))).
Proof.
  intros G. simpl. unfold bind at 1. unfold onFilesChanged, bind at 1.
  rewrite onChange_gate. unfold bind at 1. rewrite G. reflexivity.
Qed.

(** The first cycle on which the gate declines: its result is dropped, and
    with the watch option the command subscribes from the state the skip
    left. *)
Lemma initial_decline_subscribes
    (w : World) (o : CommandOption.t) (f : ProjectFile) (fs : list ProjectFile)
    (s' : State) :
  changedFiles w = Resolved (f :: fs) ->
  manifestGate w (map localPath (f :: fs)) (start o) = (Resolved false, s') ->
  Js.truthy (CommandOption.watch o) = true ->
  command w o
  = watchLocalFiles w (onReady w) (onFilesChanged w) (emit (Log "Skipping push.") s').
Proof.
  intros C G W. unfold command, action. rewrite W.
  unfold bind at 1. unfold initialCycle, bind at 1. rewrite C.
  cbv beta iota. change (negb (Nat.eqb (List.length (f :: fs)) 0)) with true.
  cbv beta iota. unfold bind at 1. rewrite onChange_gate. unfold bind at 1.
  rewrite G. reflexivity.
Qed.

(** C1, at the first cycle: the watch option is set, the manifest is the
    pending change and the user answers no.  The cycle logs
    "Skipping push." and its result is dropped: the command subscribes all
    the same, and the batch that follows is pushed. *)
Theorem initial_decline_still_watches :
  command
    (world true (fun _ => false) (fun _ => Resolved [file "Code.js"])
       (Resolved [file "appsscript.json"]) [["Code.js"]])
    {| CommandOption.watch := Some true; CommandOption.force := Some false |}
  = (Resolved tt,
     {| force := Some false;
        trace :=
          [Prompt "Manifest file has been updated. Do you want to push and overwrite?";
           Log "Skipping push.";
           Subscribe;
           Spinner "Pushing files..."; PushCall;
           Log "Pushed one file.."; Log "└─ Code.js";
           Log "Waiting for changes..."];
        prompted := 1;
        pushed := 1;
        watching := true |}).
Proof. vm_compute. reflexivity. Qed.

(** ** The properties at concrete runs *)

Lemma gate_open_without_manifest_or_with_force_witness :
  manifestGate (world true (fun _ => false) (fun _ => Resolved []) (Resolved []) [])
    ["src/appsscript.json"]
    (start {| CommandOption.watch := None; CommandOption.force := Some true |})
  = (Resolved true,
     start {| CommandOption.watch := None; CommandOption.force := Some true |}) /\
  onChange (world true (fun _ => false) (fun _ => Resolved []) (Resolved []) [])
    ["src/appsscript.json"]
    (start {| CommandOption.watch := None; CommandOption.force := Some true |})
  = pushAndReport (world true (fun _ => false) (fun _ => Resolved []) (Resolved []) [])
      (start {| CommandOption.watch := None; CommandOption.force := Some true |}).
Proof.
  apply (gate_open_without_manifest_or_with_force
           (world true (fun _ => false) (fun _ => Resolved []) (Resolved []) [])
           ["src/appsscript.json"]
           (start {| CommandOption.watch := None; CommandOption.force := Some true |})).
  right. reflexivity.
Defined.

Lemma gate_declines_when_not_interactive_witness :
  manifestGate (world false (fun _ => true) (fun _ => Resolved []) (Resolved []) [])
    ["Code.js"; "src/appsscript.json"]
    (start {| CommandOption.watch := None; CommandOption.force := None |})
  = (Resolved false,
     {| force := Some false; trace := []; prompted := 0; pushed := 0;
        watching := false |}) /\
  trace (snd (manifestGate
                (world false (fun _ => true) (fun _ => Resolved []) (Resolved []) [])
                ["Code.js"; "src/appsscript.json"]
                (start {| CommandOption.watch := None; CommandOption.force := None |})))
  = [] /\
  prompted (snd (manifestGate
                   (world false (fun _ => true) (fun _ => Resolved []) (Resolved []) [])
                   ["Code.js"; "src/appsscript.json"]
                   (start {| CommandOption.watch := None; CommandOption.force := None |})))
  = 0.
Proof.
  apply (gate_declines_when_not_interactive
           (world false (fun _ => true) (fun _ => Resolved []) (Resolved []) [])
           ["Code.js"; "src/appsscript.json"]
           (start {| CommandOption.watch := None; CommandOption.force := None |})).
  - exists "src/appsscript.json". split; [right; left; reflexivity | reflexivity].
  - reflexivity.
  - reflexivity.
Defined.

Lemma declined_cycle_skips_the_push_witness :
  onChange (world true (fun _ => false) (fun _ => Resolved [file "Code.js"]) (Resolved []) [])
    ["appsscript.json"]
    (start {| CommandOption.watch := None; CommandOption.force := Some false |})
  = (Resolved Js.undefined,
     {| force := Some false;
        trace :=
          [Prompt "Manifest file has been updated. Do you want to push and overwrite?";
           Log "Skipping push."];
        prompted := 1; pushed := 0; watching := false |}).
Proof.
  apply (declined_cycle_skips_the_push
           (world true (fun _ => false) (fun _ => Resolved [file "Code.js"]) (Resolved []) [])
           ["appsscript.json"]
           (start {| CommandOption.watch := None; CommandOption.force := Some false |})
           {| force := Some false;
              trace :=
                [Prompt "Manifest file has been updated. Do you want to push and overwrite?"];
              prompted := 1; pushed := 0; watching := false |}).
  reflexivity.
Defined.

Lemma up_to_date_without_push_witness :
  command (world true (fun _ => true) (fun _ => Resolved [file "Code.js"]) (Resolved []) [])
    {| CommandOption.watch := None; CommandOption.force := None |}
  = (Resolved tt,
     {| force := None; trace := [Log "Script is already up to date."];
        prompted := 0; pushed := 0; watching := false |}).
Proof.
  apply (up_to_date_without_push
           (world true (fun _ => true) (fun _ => Resolved [file "Code.js"]) (Resolved []) [])
           {| CommandOption.watch := None; CommandOption.force := None |}).
  reflexivity.
Defined.

Lemma push_report_counts_and_lists_files_witness :
  exists s'',
    onChange
      (world true (fun _ => true) (fun _ => Resolved [file "a.js"; file "b.js"])
         (Resolved [file "a.js"; file "b.js"]) [])
      ["a.js"; "b.js"]
      (start {| CommandOption.watch := None; CommandOption.force := Some false |})
    = (Resolved (Some true), s'') /\
    trace s''
    = [Spinner "Pushing files..."; PushCall; Log "Pushed 2 files.";
       Log "└─ a.js"; Log "└─ b.js"] /\
    pushed s'' = 1.
Proof.
  apply (push_report_counts_and_lists_files
           (world true (fun _ => true) (fun _ => Resolved [file "a.js"; file "b.js"])
              (Resolved [file "a.js"; file "b.js"]) [])
           ["a.js"; "b.js"]
           (start {| CommandOption.watch := None; CommandOption.force := Some false |})
           (start {| CommandOption.watch := None; CommandOption.force := Some false |})
           [file "a.js"; file "b.js"]).
  - reflexivity.
  - reflexivity.
Defined.

Lemma push_failure_propagates_witness :
  exists s'',
    onChange
      (world true (fun _ => true) (fun _ => Rejected "ECONNRESET") (Resolved []) [])
      ["Code.js"]
      (start {| CommandOption.watch := Some true; CommandOption.force := None |})
    = (Rejected "ECONNRESET", s'') /\
    onFilesChanged
      (world true (fun _ => true) (fun _ => Rejected "ECONNRESET") (Resolved []) [])
      ["Code.js"]
      (start {| CommandOption.watch := Some true; CommandOption.force := None |})
    = (Rejected "ECONNRESET", s'') /\
    trace s'' = [Spinner "Pushing files..."; PushCall] /\
    pushed s'' = 1.
Proof.
  apply (push_failure_propagates
           (world true (fun _ => true) (fun _ => Rejected "ECONNRESET") (Resolved []) [])
           ["Code.js"]
           (start {| CommandOption.watch := Some true; CommandOption.force := None |})
           (start {| CommandOption.watch := Some true; CommandOption.force := None |})
           "ECONNRESET").
  - reflexivity.
  - reflexivity.
Defined.

Lemma empty_push_is_a_success_witness :
  exists s'',
    onChange (world true (fun _ => true) (fun _ => Resolved []) (Resolved []) [])
      ["Code.js"]
      (withWatching true
         (start {| CommandOption.watch := Some true; CommandOption.force := None |}))
    = (Resolved (Some true), s'') /\
    trace s'' = [Spinner "Pushing files..."; PushCall; Log "Pushed no files.."] /\
    onFilesChanged (world true (fun _ => true) (fun _ => Resolved []) (Resolved []) [])
      ["Code.js"]
      (withWatching true
         (start {| CommandOption.watch := Some true; CommandOption.force := None |}))
    = (Resolved tt, s'') /\
    watching s'' = true /\
    deliver
      (onReady (world true (fun _ => true) (fun _ => Resolved []) (Resolved []) []))
      (onFilesChanged (world true (fun _ => true) (fun _ => Resolved []) (Resolved []) []))
      [["Code.js"]; ["util.js"]]
      (withWatching true
         (start {| CommandOption.watch := Some true; CommandOption.force := None |}))
    = (onReady (world true (fun _ => true) (fun _ => Resolved []) (Resolved []) []) ;;
       deliver
         (onReady (world true (fun _ => true) (fun _ => Resolved []) (Resolved []) []))
         (onFilesChanged
            (world true (fun _ => true) (fun _ => Resolved []) (Resolved []) []))
         [["util.js"]]) s''.
Proof.
  apply (empty_push_is_a_success
           (world true (fun _ => true) (fun _ => Resolved []) (Resolved []) [])
           ["Code.js"] [["util.js"]]
           (withWatching true
              (start {| CommandOption.watch := Some true; CommandOption.force := None |}))
           (withWatching true
              (start {| CommandOption.watch := Some true; CommandOption.force := None |}))).
  - reflexivity.
  - reflexivity.
  - reflexivity.
Defined.

Lemma force_is_irrelevant_without_manifest_witness :
  let w := world false (fun _ => false) (fun _ => Resolved [file "Code.js"]) (Resolved []) [] in
  let s := start {| CommandOption.watch := None; CommandOption.force := None |} in
  let r1 := onChange w ["src/Code.js"] (withForce (Some true) s) in
  let r2 := onChange w ["src/Code.js"] (withForce None s) in
  fst r1 = fst r2 /\
  trace (snd r1) = trace (snd r2) /\
  prompted (snd r1) = prompted (snd r2) /\
  pushed (snd r1) = pushed (snd r2) /\
  watching (snd r1) = watching (snd r2) /\
  force (snd r1) = Some true /\ force (snd r2) = None.
Proof.
  apply (force_is_irrelevant_without_manifest
           (world false (fun _ => false) (fun _ => Resolved [file "Code.js"]) (Resolved []) [])
           ["src/Code.js"]
           (start {| CommandOption.watch := None; CommandOption.force := None |})
           (Some true) None).
  intros p [<-|[]]. vm_compute. discriminate.
Defined.

(** Scenario B of the spec: the manifest is pending, the user confirms; the
    push goes ahead and the force flag is true afterwards. *)
Example scenario_confirmed :
  command
    (world true (fun _ => true) (fun _ => Resolved [file "appsscript.json"])
       (Resolved [file "appsscript.json"]) [])
    {| CommandOption.watch := None; CommandOption.force := Some false |}
  = (Resolved tt,
     {| force := Some true;
        trace :=
          [Prompt "Manifest file has been updated. Do you want to push and overwrite?";
           Spinner "Pushing files..."; PushCall;
           Log "Pushed one file.."; Log "└─ appsscript.json"];
        prompted := 1; pushed := 1; watching := false |}).
Proof. vm_compute. reflexivity. Qed.

(** A session in which the manifest changes twice: the first confirmation
    upgrades the force flag, and the second change is pushed unprompted. *)
Example scenario_upgrade_persists :
  let s :=
    cycles (world true (fun _ => true) (fun _ => Resolved []) (Resolved []) [])
      [["appsscript.json"]; ["Code.js"]; ["appsscript.json"]]
      (start {| CommandOption.watch := Some true; CommandOption.force := None |}) in
  force s = Some true /\ prompted s = 1 /\ pushed s = 3.
Proof. vm_compute. auto. Qed.

(** A batch of the watcher that the user declines ends the session: the
    batch that follows is not processed. *)
Example scenario_declined_in_watch :
  command
    (world true (fun _ => false) (fun _ => Resolved [file "Code.js"])
       (Resolved [file "Code.js"]) [["appsscript.json"]; ["Code.js"]])
    {| CommandOption.watch := Some true; CommandOption.force := None |}
  = (Resolved tt,
     {| force := Some false;
        trace :=
          [Spinner "Pushing files..."; PushCall;
           Log "Pushed one file.."; Log "└─ Code.js";
           Subscribe;
           Prompt "Manifest file has been updated. Do you want to push and overwrite?";
           Log "Skipping push.";
           StopWatching];
        prompted := 1; pushed := 1; watching := false |}).
Proof. vm_compute. reflexivity. Qed.

(** * Further properties of the cycle and of the session *)

(** ** Counting in a trace *)

Lemma count_app (p : Event -> bool) (a b : list Event) :
  count p (a ++ b) = count p a + count p b.
Proof. unfold count. now rewrite filter_app, length_app. Qed.

Lemma count_logs {A : Type} (p : Event -> bool) (g : A -> string) (l : list A) :
  (forall line, p (Log line) = false) ->
  count p (map (fun x => Log (g x)) l) = 0.
Proof.
  intros H. induction l as [|x l IH]; [reflexivity|].
  unfold count in *. simpl. now rewrite H.
Qed.

Lemma count_cons (p : Event -> bool) (e : Event) (l : list Event) :
  count p (e :: l) = Nat.b2n (p e) + count p l.
Proof. unfold count. simpl. now destruct (p e). Qed.

Lemma count_one (p : Event -> bool) (e : Event) : count p [e] = Nat.b2n (p e).
Proof. unfold count. simpl. now destruct (p e). Qed.

(** The push and its report, counted. *)
Lemma pushAndReport_count (w : World) (s : State) (p : Event -> bool) :
  (forall line, p (Log line) = false) ->
  (forall m, p (Spinner m) = false) ->
  count p (trace (snd (pushAndReport w s))) = count p (trace s) + Nat.b2n (p PushCall).
Proof.
  intros HL HS. rewrite pushAndReport_run.
  destruct (pushOutcomes w (pushed s)) as [files|e]; simpl.
  - rewrite !count_app, !count_one, HS, count_cons, HL, count_logs by exact HL.
    simpl. lia.
  - rewrite !count_app, !count_one, HS. simpl. lia.
Qed.

Lemma pushAndReport_value (w : World) (t : State) (v : Js.Boolish) :
  fst (pushAndReport w t) = Resolved v -> v = Some true.
Proof.
  rewrite pushAndReport_run. destruct (pushOutcomes w (pushed t)); simpl; congruence.
Qed.

(** One cycle, in full: whether it asked, whether it called the push, and
    what that did to the counters, the trace, the force flag and the
    result. *)
Lemma onChange_summary (w : World) (paths : list string) (s : State) :
  exists asked called : bool,
    prompted (snd (onChange w paths s)) = prompted s + Nat.b2n asked /\
    pushed (snd (onChange w paths s)) = pushed s + Nat.b2n called /\
    watching (snd (onChange w paths s)) = watching s /\
    (forall p,
        (forall line, p (Log line) = false) ->
        (forall m, p (Spinner m) = false) ->
        count p (trace (snd (onChange w paths s)))
        = count p (trace s)
          + (if asked
             then Nat.b2n
                    (p (Prompt
                          "Manifest file has been updated. Do you want to push and overwrite?"))
             else 0)
          + (if called then Nat.b2n (p PushCall) else 0)) /\
    (asked = true ->
     isInteractive w = true /\ isManifestUpdated w paths = true /\
     Js.truthy (force s) = false /\
     force (snd (onChange w paths s)) = Some (answers w (prompted s)) /\
     called = answers w (prompted s)) /\
    (asked = false -> called = true -> force (snd (onChange w paths s)) = force s) /\
    (asked = false -> called = false ->
     isInteractive w = false /\ isManifestUpdated w paths = true /\
     Js.truthy (force s) = false) /\
    match fst (onChange w paths s) with
    | Resolved v => Js.truthy v = called
    | Rejected e => called = true /\ pushOutcomes w (pushed s) = Rejected e
    end.
Proof.
  rewrite onChange_gate. unfold bind.
  destruct (gate_cases w paths s) as [[E G]|[[Hm [Hf [Hi G]]]|[Hm [Hf [Hi G]]]]];
    rewrite G; cbv beta iota.
  - exists false, true.
    destruct (after_gate_keeps w true s) as [Kf [Kp Kw]]. cbv beta iota in Kf, Kp, Kw.
    rewrite Kp, Kw. repeat split; try (simpl; lia); try congruence.
    + rewrite pushAndReport_run.
      destruct (pushOutcomes w (pushed s)); simpl; lia.
    + intros p HL HS. rewrite (pushAndReport_count w s p HL HS). lia.
    + rewrite pushAndReport_run.
      destruct (pushOutcomes w (pushed s)); simpl; auto.
  - exists false, false. simpl. repeat split; auto; try lia; try congruence.
    intros p HL HS. rewrite count_app, count_one, HL. simpl. lia.
  - destruct (answers w (prompted s)) eqn:A.
    + exists true, true.
      match goal with
      | |- context [pushAndReport w ?t] =>
          destruct (after_gate_keeps w true t) as [Kf [Kp Kw]];
          pose proof (pushAndReport_run w t) as Run;
          pose proof (pushAndReport_count w t) as Cnt
      end.
      cbv beta iota in Kf, Kp, Kw. rewrite Kf, Kp, Kw.
      repeat split; try (simpl; lia); try congruence; auto.
      * rewrite Run. simpl.
        destruct (pushOutcomes w (pushed s)); simpl; lia.
      * intros p HL HS. rewrite (Cnt p HL HS). simpl.
        rewrite count_app, count_one. lia.
      * rewrite Run. simpl.
        destruct (pushOutcomes w (pushed s)); simpl; auto.
    + exists true, false. simpl. repeat split; auto; try lia; try congruence.
      intros p HL HS. rewrite !count_app, !count_one, HL. simpl. lia.
Qed.

(** ** One cycle *)

(** X1: with the manifest in the batch, the force flag false or unset and
    an interactive environment, the gate shows the overwrite prompt once,
    sets the force flag to the answer and proceeds exactly when the answer
    is yes; the cycle is then the push or the skip from that state. *)
Theorem gate_asks_once_when_interactive
    (w : World) (paths : list string) (s : State) :
  (exists p, In p paths /\ basename w p = "appsscript.json") ->
  Js.truthy (force s) = false ->
  isInteractive w = true ->
  let asked :=
    withForce (Some (answers w (prompted s)))
      (nextPrompt
         (emit (Prompt "Manifest file has been updated. Do you want to push and overwrite?")
            s)) in
  manifestGate w paths s = (Resolved (answers w (prompted s)), asked) /\
  onChange w paths s
  = (if answers w (prompted s) then pushAndReport w else skipPush w) asked /\
  trace asked
  = (trace s
     ++ [Prompt "Manifest file has been updated. Do you want to push and overwrite?"])%list.
Proof.
  intros Hm Hf Hi asked. apply isManifestUpdated_true in Hm.
  assert (manifestGate w paths s = (Resolved (answers w (prompted s)), asked)) as G.
  { destruct (gate_cases w paths s) as [[E _]|[[_ [_ [Hi' _]]]|[_ [_ [_ G]]]]].
    - rewrite Hm, Hf in E. discriminate.
    - congruence.
    - exact G. }
  split; [exact G|]. split; [|reflexivity].
  rewrite onChange_gate. unfold bind. now rewrite G.
Qed.


(** X3: a cycle looks at its batch only for whether it names the manifest:
    two batches that agree on that make the same cycle, whatever else they
    hold and in whatever order (the push takes no batch). *)
Theorem cycle_reads_the_batch_for_the_manifest_only
    (w : World) (a b : list string) (s : State) :
  ((exists p, In p a /\ basename w p = "appsscript.json") <->
   (exists p, In p b /\ basename w p = "appsscript.json")) ->
  manifestGate w a s = manifestGate w b s /\
  onChange w a s = onChange w b s.
Proof.
  intros H.
  assert (isManifestUpdated w a = isManifestUpdated w b) as E.
  { destruct (isManifestUpdated w a) eqn:Ea, (isManifestUpdated w b) eqn:Eb; auto.
    - apply isManifestUpdated_true, H, isManifestUpdated_true in Ea. congruence.
    - apply isManifestUpdated_true, H, isManifestUpdated_true in Eb. congruence. }
  split.
  - unfold manifestGate, bind, get. now rewrite E.
  - unfold onChange, bind, get. now rewrite E.
Qed.

(** The push leaves the subscription alone, and resolves to [true] when it
    resolves. *)
Lemma pushAndReport_subscription (w : World) (t : State) :
  match pushAndReport w t with
  | (Resolved v, t1) =>
      v = Some true /\ watching t1 = watching t /\
      count isStopWatching (trace t1) = count isStopWatching (trace t)
  | (Rejected _, t1) =>
      watching t1 = watching t /\
      count isStopWatching (trace t1) = count isStopWatching (trace t)
  end.
Proof.
  pose proof (pushAndReport_count w t isStopWatching
                (fun _ => eq_refl) (fun _ => eq_refl)) as C.
  destruct (after_gate_keeps w true t) as [_ [_ Kw]]. cbv beta iota in Kw.
  pose proof (pushAndReport_value w t) as V.
  destruct (pushAndReport w t) as [[v|e] t1]; simpl in *.
  - split; [now apply V|]. split; [exact Kw | lia].
  - split; [exact Kw | lia].
Qed.

(** The watcher's callback, by the gate and by the push. *)
Lemma onFilesChanged_run (w : World) (paths : list string) (s : State) :
  onFilesChanged w paths s
  = match manifestGate w paths s with
    | (Resolved true, s1) =>
        match pushAndReport w s1 with
        | (Resolved _, s2) => (Resolved tt, s2)
        | (Rejected e, s2) => (Rejected e, s2)
        end
    | (Resolved false, s1) =>
        (Resolved tt, withWatching false (emit StopWatching (emit (Log "Skipping push.") s1)))
    | (Rejected e, s1) => (Rejected e, s1)
    end.
Proof.
  unfold onFilesChanged, bind. rewrite onChange_gate. unfold bind.
  destruct (manifestGate w paths s) as [[[|]|e] s1]; try reflexivity.
  pose proof (pushAndReport_subscription w s1) as P.
  destruct (pushAndReport w s1) as [[v|e] s2]; [|reflexivity].
  destruct P as [-> _]. reflexivity.
Qed.

(** X4: the watcher's callback calls the stop handle exactly when the gate
    declines: then the subscription is cancelled by one call of the
    handle; after a push, resolved or rejected, the handle is not called
    and the subscription is as it was. *)
Theorem callback_stops_exactly_on_decline
    (w : World) (paths : list string) (s : State) :
  match fst (manifestGate w paths s) with
  | Resolved false =>
      watching (snd (onFilesChanged w paths s)) = false /\
      count isStopWatching (trace (snd (onFilesChanged w paths s)))
      = count isStopWatching (trace s) + 1
  | _ =>
      watching (snd (onFilesChanged w paths s)) = watching s /\
      count isStopWatching (trace (snd (onFilesChanged w paths s)))
      = count isStopWatching (trace s)
  end.
Proof.
  rewrite onFilesChanged_run.
  destruct (gate_cases w paths s) as [[_ G]|[[_ [_ [_ G]]]|[_ [_ [_ G]]]]];
    rewrite G; simpl fst; cbv beta iota.
  - pose proof (pushAndReport_subscription w s) as P.
    destruct (pushAndReport w s) as [[v|e] s2]; simpl; [destruct P as [_ P]|]; exact P.
  - simpl. rewrite !count_app, !count_one. simpl. split; [reflexivity | lia].
  - destruct (answers w (prompted s)).
    + match goal with
      | |- context [pushAndReport w ?t] =>
          pose proof (pushAndReport_subscription w t) as P;
          destruct (pushAndReport w t) as [[v|e] s2]
      end.
      * destruct P as [_ [Pw Pc]]. simpl in *. rewrite Pc, count_app, count_one.
        simpl. split; [exact Pw | lia].
      * destruct P as [Pw Pc]. simpl in *. rewrite Pc, count_app, count_one.
        simpl. split; [exact Pw | lia].
    + simpl. rewrite !count_app, !count_one. simpl. split; [reflexivity | lia].
Qed.

(** Under an active subscription the callback has called the stop handle
    once if it left the subscription cancelled, and not at all if it left
    it active. *)
Lemma onFilesChanged_stop_count (w : World) (paths : list string) (s : State) :
  watching s = true ->
  count isStopWatching (trace (snd (onFilesChanged w paths s)))
  = count isStopWatching (trace s)
    + (if watching (snd (onFilesChanged w paths s)) then 0 else 1).
Proof.
  intros Hw. rewrite onFilesChanged_run.
  assert (forall t,
             watching t = true ->
             count isStopWatching (trace t) = count isStopWatching (trace s) ->
             count isStopWatching
               (trace (snd (match pushAndReport w t with
                            | (Resolved _, s2) => (Resolved tt, s2)
                            | (Rejected e, s2) => (Rejected e, s2)
                            end)))
             = count isStopWatching (trace s)
               + (if watching (snd (match pushAndReport w t with
                                    | (Resolved _, s2) => (Resolved tt, s2)
                                    | (Rejected e, s2) => (Rejected e, s2)
                                    end))
                  then 0 else 1)) as P.
  { intros t Ht Hc. pose proof (pushAndReport_subscription w t) as P.
    destruct (pushAndReport w t) as [[v|e] s2]; simpl;
      [destruct P as [_ [Pw Pc]] | destruct P as [Pw Pc]];
      rewrite Pw, Pc, Ht; lia. }
  destruct (gate_cases w paths s) as [[_ G]|[[_ [_ [_ G]]]|[_ [_ [_ G]]]]];
    rewrite G; cbv beta iota.
  - now apply P.
  - simpl. rewrite !count_app, !count_one. simpl. lia.
  - destruct (answers w (prompted s)).
    + apply P; [exact Hw|]. simpl. rewrite count_app, count_one. simpl. lia.
    + simpl. rewrite !count_app, !count_one. simpl. lia.
Qed.

(** ** The session *)

Lemma steps_bind {A B : Type} (R : State -> State -> Prop) (m : M A) (k : A -> M B) :
  (forall a b c, R a b -> R b c -> R a c) ->
  steps R m -> (forall a, steps R (k a)) -> steps R (bind m k).
Proof.
  intros T Hm Hk s. unfold bind. specialize (Hm s).
  destruct (m s) as [[a|e] s1]; simpl in *; [|exact Hm].
  exact (T _ _ _ Hm (Hk a s1)).
Qed.

Lemma steps_ret {A : Type} (R : State -> State -> Prop) (a : A) :
  (forall s, R s s) -> steps R (ret a).
Proof. intros H s. apply H. Qed.

(** What holds of every cycle, of every run of the callback, of every log
    and of the subscription holds of the whole action. *)
Lemma steps_action (w : World) (R : State -> State -> Prop) (watch : Js.Boolish) :
  (forall s, R s s) ->
  (forall a b c, R a b -> R b c -> R a c) ->
  (forall paths, steps R (onChange w paths)) ->
  (forall paths, steps R (onFilesChanged w paths)) ->
  (forall line s, R s (emit (Log line) s)) ->
  (forall s, R s (withWatching true (emit Subscribe s))) ->
  steps R (action w watch).
Proof.
  intros Rf Tr Hc Hf Hl Hs.
  assert (forall pending, steps R (deliver (onReady w) (onFilesChanged w) pending)) as D.
  { induction pending as [|paths later IH]; simpl; [now apply steps_ret|].
    apply steps_bind; [exact Tr | apply Hf |]. intros _.
    apply steps_bind; [exact Tr | intros s; apply Rf |]. intros s0.
    destruct (watching s0); [|now apply steps_ret].
    apply steps_bind; [exact Tr | intros s; apply Hl | intros _; exact IH]. }
  apply steps_bind; [exact Tr | |].
  - apply steps_bind; [exact Tr | intros s; apply Rf |]. intros pending.
    destruct (negb (Nat.eqb (List.length pending) 0)).
    + apply steps_bind; [exact Tr | apply Hc | intros _; now apply steps_ret].
    + intros s. apply Hl.
  - intros _. destruct (negb (Js.truthy watch)); [now apply steps_ret|].
    apply steps_bind; [exact Tr | intros s; apply Hs | intros _; apply D].
Qed.

(** X5: in an environment that is not interactive the command shows no
    prompt, in its first cycle or in any cycle of the watch session. *)
Theorem no_prompt_when_not_interactive (w : World) (o : CommandOption.t) :
  isInteractive w = false ->
  count isPrompt (trace (snd (command w o))) = 0 /\
  prompted (snd (command w o)) = 0.
Proof.
  intros Hi.
  set (R := fun s s' : State =>
              count isPrompt (trace s') = count isPrompt (trace s) /\
              prompted s' = prompted s).
  assert (forall paths, steps R (onChange w paths)) as Hc.
  { intros paths s.
    destruct (onChange_summary w paths s)
      as [asked [called [Pp [_ [_ [C [A _]]]]]]].
    destruct asked; [destruct (A eq_refl) as [Hi' _]; congruence|].
    specialize (C isPrompt (fun _ => eq_refl) (fun _ => eq_refl)).
    split; [rewrite C; destruct called; simpl; lia | rewrite Pp; simpl; lia]. }
  assert (steps R (action w (CommandOption.watch o))) as H.
  { apply steps_action.
    - intros s. split; reflexivity.
    - intros a b c [H1 H2] [H3 H4]. split; congruence.
    - exact Hc.
    - intros paths. unfold onFilesChanged.
      apply steps_bind; [intros a b c [H1 H2] [H3 H4]; split; congruence | apply Hc |].
      intros r s. unfold R. destruct (negb (Js.truthy r)); simpl.
      + split; [|reflexivity]. rewrite count_app, count_one. simpl. lia.
      + split; reflexivity.
    - intros line s. unfold R. simpl. split; [|reflexivity].
      rewrite count_app, count_one. simpl. lia.
    - intros s. unfold R. simpl. split; [|reflexivity].
      rewrite count_app, count_one. simpl. lia. }
  destruct (H (start o)) as [H1 H2]. unfold command. rewrite H1, H2. split; reflexivity.
Qed.

(** X6: a command started with the force option shows no prompt and never
    calls the stop handle, whatever the batches hold and however the
    pushes settle. *)
Theorem forced_command_never_asks_nor_stops (w : World) (o : CommandOption.t) :
  Js.truthy (CommandOption.force o) = true ->
  count isPrompt (trace (snd (command w o))) = 0 /\
  count isStopWatching (trace (snd (command w o))) = 0.
Proof.
  intros Hf.
  set (R := fun s s' : State =>
              Js.truthy (force s) = true ->
              Js.truthy (force s') = true /\
              count isPrompt (trace s') = count isPrompt (trace s) /\
              count isStopWatching (trace s') = count isStopWatching (trace s)).
  assert (forall a b c, R a b -> R b c -> R a c) as Tr.
  { intros a b c H1 H2 Ha. destruct (H1 Ha) as [Hb [P1 S1]].
    destruct (H2 Hb) as [Hc [P2 S2]]. repeat split; congruence. }
  assert (forall paths s,
             Js.truthy (force s) = true ->
             exists v,
               fst (onChange w paths s) = Resolved (Some true) \/
               fst (onChange w paths s) = Rejected v) as Hv.
  { intros paths s H. rewrite onChange_open by (rewrite H; apply andb_false_r).
    rewrite pushAndReport_run.
    destruct (pushOutcomes w (pushed s)) as [files|e]; simpl.
    - exists "". now left.
    - exists e. now right. }
  assert (forall paths, steps R (onChange w paths)) as Hc.
  { intros paths s H.
    destruct (onChange_summary w paths s)
      as [asked [called [_ [_ [_ [C [A [K [N _]]]]]]]]].
    destruct asked; [destruct (A eq_refl) as [_ [_ [F _]]]; congruence|].
    destruct called; [|destruct (N eq_refl eq_refl) as [_ [_ F]]; congruence].
    rewrite (K eq_refl eq_refl).
    rewrite (C isPrompt (fun _ => eq_refl) (fun _ => eq_refl)).
    rewrite (C isStopWatching (fun _ => eq_refl) (fun _ => eq_refl)).
    simpl. repeat split; auto; lia. }
  assert (steps R (action w (CommandOption.watch o))) as H.
  { apply steps_action.
    - intros s H. auto.
    - exact Tr.
    - exact Hc.
    - intros paths s H. unfold onFilesChanged, bind.
      specialize (Hc paths s H). destruct (Hv paths s H) as [v V].
      destruct (onChange w paths s) as [[r|e] s1]; simpl in *.
      + destruct V as [V|V]; [|discriminate]. injection V as ->. exact Hc.
      + exact Hc.
    - intros line s. unfold R. intros H. simpl. rewrite !count_app, !count_one. simpl.
      repeat split; auto; lia.
    - intros s. unfold R. intros H. simpl. rewrite !count_app, !count_one. simpl.
      repeat split; auto; lia. }
  destruct (H (start o) Hf) as [_ [H1 H2]]. unfold command. rewrite H1, H2.
  split; reflexivity.
Qed.

(** The first cycle leaves the subscription alone. *)
Lemma initialCycle_subscription (w : World) :
  steps (fun s s' =>
           watching s' = watching s /\
           count isSubscribe (trace s') = count isSubscribe (trace s) /\
           count isStopWatching (trace s') = count isStopWatching (trace s))
    (initialCycle w).
Proof.
  assert (forall a b c : State,
             (watching b = watching a /\
              count isSubscribe (trace b) = count isSubscribe (trace a) /\
              count isStopWatching (trace b) = count isStopWatching (trace a)) ->
             (watching c = watching b /\
              count isSubscribe (trace c) = count isSubscribe (trace b) /\
              count isStopWatching (trace c) = count isStopWatching (trace b)) ->
             watching c = watching a /\
             count isSubscribe (trace c) = count isSubscribe (trace a) /\
             count isStopWatching (trace c) = count isStopWatching (trace a)) as Tr.
  { intros a b c [H1 [H2 H3]] [H4 [H5 H6]]. repeat split; congruence. }
  unfold initialCycle.
  apply steps_bind; [exact Tr | intros s; repeat split; reflexivity|].
  intros pending. destruct (negb (Nat.eqb (List.length pending) 0)).
  - apply steps_bind; [exact Tr | | intros _ s; repeat split; reflexivity].
    intros s.
    destruct (onChange_summary w (map localPath pending) s)
      as [asked [called [_ [_ [Kw [C _]]]]]].
    rewrite Kw.
    rewrite (C isSubscribe (fun _ => eq_refl) (fun _ => eq_refl)).
    rewrite (C isStopWatching (fun _ => eq_refl) (fun _ => eq_refl)).
    destruct asked, called; simpl; repeat split; lia.
  - intros s. simpl. rewrite !count_app, !count_one. simpl. repeat split; lia.
Qed.

(** X7: without the watch option the command is its first cycle: it never
    subscribes to the notifier and never calls the stop handle. *)
Theorem no_subscription_without_watch (w : World) (o : CommandOption.t) :
  Js.truthy (CommandOption.watch o) = false ->
  command w o = initialCycle w (start o) /\
  watching (snd (command w o)) = false /\
  count isSubscribe (trace (snd (command w o))) = 0 /\
  count isStopWatching (trace (snd (command w o))) = 0.
Proof.
  intros H.
  assert (command w o = initialCycle w (start o)) as E.
  { unfold command, action, bind. rewrite H. simpl.
    destruct (initialCycle w (start o)) as [[[]|e] s1]; reflexivity. }
  split; [exact E|]. rewrite E.
  destruct (initialCycle_subscription w (start o)) as [H1 [H2 H3]].
  rewrite H1, H2, H3. repeat split; reflexivity.
Qed.

(** X8: when the first cycle is rejected (the listing of the changed files
    or the first push failed) the command is rejected with the same
    reason there and then: even with the watch option it does not
    subscribe. *)
Theorem first_failure_ends_the_command
    (w : World) (o : CommandOption.t) (e : string) :
  fst (initialCycle w (start o)) = Rejected e ->
  command w o = (Rejected e, snd (initialCycle w (start o))) /\
  watching (snd (command w o)) = false /\
  count isSubscribe (trace (snd (command w o))) = 0.
Proof.
  intros H.
  assert (command w o = (Rejected e, snd (initialCycle w (start o)))) as E.
  { unfold command, action, bind.
    destruct (initialCycle w (start o)) as [[[]|e'] s1]; simpl in *; congruence. }
  split; [exact E|]. rewrite E. simpl.
  destruct (initialCycle_subscription w (start o)) as [H1 [H2 _]].
  rewrite H1, H2. split; reflexivity.
Qed.

Lemma cycles_forced_no_prompt (w : World) (bs : list (list string)) :
  forall s, Js.truthy (force s) = true -> prompted (cycles w bs s) = prompted s.
Proof.
  induction bs as [|paths bs IH]; intros s H; simpl; [reflexivity|].
  destruct (onChange_force w paths s) as [_ [K _]].
  destruct (onChange_summary w paths s) as [asked [called [Pp [_ [_ [_ [A _]]]]]]].
  destruct asked; [destruct (A eq_refl) as [_ [_ [F _]]]; congruence|].
  rewrite IH by (rewrite (K H); exact H). rewrite Pp. simpl. lia.
Qed.

(** X9: in a run of cycles a prompt that is answered yes is the last prompt
    of the run: the force flag is true from there on and no later cycle
    asks again. *)
Theorem accepted_prompt_is_the_last
    (w : World) (bs : list (list string)) (s : State) (k : nat) :
  prompted s <= k < prompted (cycles w bs s) ->
  answers w k = true ->
  prompted (cycles w bs s) = S k /\ force (cycles w bs s) = Some true.
Proof.
  revert s. induction bs as [|paths bs IH]; intros s Hk Ha; simpl in *; [lia|].
  destruct (onChange_summary w paths s) as [asked [called [Pp [_ [_ [_ [A _]]]]]]].
  destruct asked; simpl in Pp.
  - destruct (A eq_refl) as [_ [_ [_ [F _]]]].
    destruct (Nat.eq_dec k (prompted s)) as [Heq|Hne].
    + rewrite Heq in Ha. rewrite Ha in F.
      rewrite (cycles_forced_no_prompt w bs _ ltac:(now rewrite F)).
      rewrite (cycles_keep_force w bs _ ltac:(now rewrite F)).
      split; [lia | exact F].
    + apply IH; [lia | exact Ha].
  - apply IH; [lia | exact Ha].
Qed.

(** A cycle under a true force flag whose push resolves. *)
Lemma forced_cycle (w : World) (paths : list string) (s : State) :
  Js.truthy (force s) = true ->
  (exists files, pushOutcomes w (pushed s) = Resolved files) ->
  onChange w paths s = (Resolved (Some true), snd (pushAndReport w s)) /\
  onFilesChanged w paths s = (Resolved tt, snd (pushAndReport w s)) /\
  Js.truthy (force (snd (pushAndReport w s))) = true /\
  watching (snd (pushAndReport w s)) = watching s /\
  count isPushCall (trace (snd (pushAndReport w s))) = count isPushCall (trace s) + 1.
Proof.
  intros H [files P].
  assert (onChange w paths s = (Resolved (Some true), snd (pushAndReport w s))) as E.
  { rewrite onChange_open by (rewrite H; apply andb_false_r).
    rewrite pushAndReport_run, P. reflexivity. }
  split; [exact E|]. split.
  - unfold onFilesChanged, bind. rewrite E. reflexivity.
  - destruct (after_gate_keeps w true s) as [Kf [_ Kw]]. cbv beta iota in Kf, Kw.
    rewrite Kf, Kw.
    rewrite (pushAndReport_count w s isPushCall (fun _ => eq_refl) (fun _ => eq_refl)).
    auto.
Qed.

Lemma deliver_cons (ready : M unit) (changed : list string -> M unit)
    (paths : list string) (later : list (list string)) (s : State) :
  deliver ready changed (paths :: later) s
  = match changed paths s with
    | (Resolved _, s1) =>
        if watching s1
        then match ready s1 with
             | (Resolved _, s2) => deliver ready changed later s2
             | (Rejected e, s2) => (Rejected e, s2)
             end
        else (Resolved tt, s1)
    | (Rejected e, s1) => (Rejected e, s1)
    end.
Proof.
  simpl. unfold bind, get.
  destruct (changed paths s) as [[[]|e] s1]; [|reflexivity].
  destruct (watching s1); reflexivity.
Qed.

Lemma onReady_run (w : World) (s : State) :
  onReady w s = (Resolved tt, emit (Log "Waiting for changes...") s).
Proof. reflexivity. Qed.

Lemma forced_deliver (w : World) :
  (forall k, exists files, pushOutcomes w k = Resolved files) ->
  forall (pending : list (list string)) (s : State),
    Js.truthy (force s) = true ->
    watching s = true ->
    fst (deliver (onReady w) (onFilesChanged w) pending s) = Resolved tt /\
    watching (snd (deliver (onReady w) (onFilesChanged w) pending s)) = true /\
    count isPushCall (trace (snd (deliver (onReady w) (onFilesChanged w) pending s)))
    = count isPushCall (trace s) + List.length pending.
Proof.
  intros All. induction pending as [|paths later IH]; intros s Hf Hw.
  - simpl. repeat split; auto.
  - destruct (forced_cycle w paths s Hf (All _)) as [_ [F [Kf [Kw C]]]].
    rewrite deliver_cons, F, Kw, Hw, onReady_run.
    destruct (IH (emit (Log "Waiting for changes...") (snd (pushAndReport w s))))
      as [I1 [I2 I3]]; [exact Kf | simpl; congruence |].
    rewrite I1, I2, I3. simpl. rewrite count_app, count_one, C. simpl.
    repeat split; lia.
Qed.

(** X10: a watch session started with the force option, in which every
    push resolves, pushes once for the pending changes (if any) and once
    for every batch of the notifier, and is still subscribed at the end. *)
Theorem forced_watch_session_pushes_every_batch
    (w : World) (o : CommandOption.t) (pending : list ProjectFile) :
  Js.truthy (CommandOption.force o) = true ->
  Js.truthy (CommandOption.watch o) = true ->
  changedFiles w = Resolved pending ->
  (forall k, exists files, pushOutcomes w k = Resolved files) ->
  fst (command w o) = Resolved tt /\
  watching (snd (command w o)) = true /\
  count isPushCall (trace (snd (command w o)))
  = (if Nat.eqb (List.length pending) 0 then 0 else 1) + List.length (batches w).
Proof.
  intros Hf Hw Hc All.
  assert (exists s1,
             initialCycle w (start o) = (Resolved tt, s1) /\
             Js.truthy (force s1) = true /\
             count isPushCall (trace s1)
             = if Nat.eqb (List.length pending) 0 then 0 else 1) as [s1 [I [F1 C1]]].
  { unfold initialCycle, bind. rewrite Hc.
    destruct (Nat.eqb (List.length pending) 0); simpl.
    - eexists. split; [reflexivity|]. split; [exact Hf | reflexivity].
    - destruct (forced_cycle w (map localPath pending) (start o) Hf (All _))
        as [E [_ [Kf [_ C]]]].
      rewrite E. eexists. split; [reflexivity|]. split; [exact Kf | exact C]. }
  assert (command w o
          = deliver (onReady w) (onFilesChanged w) (batches w)
              (withWatching true (emit Subscribe s1))) as E.
  { unfold command, action, bind. rewrite I, Hw. reflexivity. }
  rewrite E.
  destruct (forced_deliver w All (batches w) (withWatching true (emit Subscribe s1)))
    as [D1 [D2 D3]]; [exact F1 | reflexivity |].
  rewrite D1, D2, D3. simpl. rewrite count_app, count_one, C1. simpl.
  repeat split; lia.
Qed.

Lemma onFilesChanged_subscribe (w : World) (paths : list string) (s : State) :
  count isSubscribe (trace (snd (onFilesChanged w paths s)))
  = count isSubscribe (trace s).
Proof.
  destruct (onChange_summary w paths s) as [asked [called [_ [_ [_ [C _]]]]]].
  specialize (C isSubscribe (fun _ => eq_refl) (fun _ => eq_refl)).
  unfold onFilesChanged, bind.
  destruct (onChange w paths s) as [[r|e] s1]; simpl in *.
  - destruct (negb (Js.truthy r)); simpl.
    + rewrite count_app, count_one, C. destruct asked, called; simpl; lia.
    + rewrite C. destruct asked, called; simpl; lia.
  - rewrite C. destruct asked, called; simpl; lia.
Qed.

(** An active subscription through the batches: nobody subscribes again,
    and the stop handle has been called once if the subscription ended
    cancelled and not at all if it is still active. *)
Lemma deliver_subscription (w : World) (pending : list (list string)) :
  forall s,
    watching s = true ->
    count isSubscribe (trace (snd (deliver (onReady w) (onFilesChanged w) pending s)))
    = count isSubscribe (trace s) /\
    count isStopWatching (trace (snd (deliver (onReady w) (onFilesChanged w) pending s)))
    = count isStopWatching (trace s)
      + (if watching (snd (deliver (onReady w) (onFilesChanged w) pending s))
         then 0 else 1).
Proof.
  induction pending as [|paths later IH]; intros s Hw.
  - simpl. rewrite Hw. split; lia.
  - rewrite deliver_cons.
    pose proof (onFilesChanged_subscribe w paths s) as Sb.
    pose proof (onFilesChanged_stop_count w paths s Hw) as St.
    destruct (onFilesChanged w paths s) as [[[]|e] s1]; simpl in Sb, St.
    + destruct (watching s1) eqn:W1.
      * rewrite onReady_run.
        destruct (IH (emit (Log "Waiting for changes...") s1) W1) as [I1 I2].
        rewrite I1, I2. simpl. rewrite !count_app, !count_one. simpl.
        split; lia.
      * simpl. rewrite W1. split; lia.
    + simpl. split; [lia | exact St].
Qed.

(** X11: over a whole command the notifier is subscribed to at most once,
    the stop handle is called at most once and only after subscribing,
    and the subscription is active at the end exactly when the command
    subscribed and never called the handle. *)
Theorem one_subscription_one_cancellation (w : World) (o : CommandOption.t) :
  count isSubscribe (trace (snd (command w o))) <= 1 /\
  count isStopWatching (trace (snd (command w o)))
  <= count isSubscribe (trace (snd (command w o))) /\
  (watching (snd (command w o)) = true <->
   count isSubscribe (trace (snd (command w o))) = 1 /\
   count isStopWatching (trace (snd (command w o))) = 0).
Proof.
  destruct (initialCycle_subscription w (start o)) as [Iw [Ib Is]].
  simpl in Iw, Ib, Is. change (count isSubscribe []) with 0 in Ib.
  change (count isStopWatching []) with 0 in Is.
  unfold command, action, bind.
  destruct (initialCycle w (start o)) as [[[]|e] s1]; simpl in Iw, Ib, Is.
  - destruct (negb (Js.truthy (CommandOption.watch o))).
    + simpl. rewrite Iw, Ib, Is.
      split; [lia|]. split; [lia|]. split; [discriminate | intros [A _]; lia].
    + unfold watchLocalFiles, bind, modify.
      destruct (deliver_subscription w (batches w)
                  (withWatching true (emit Subscribe s1)) eq_refl) as [D1 D2].
      simpl in D1, D2. rewrite count_app, count_one in D1, D2. simpl in D1, D2.
      simpl snd. rewrite D1, D2, Ib, Is.
      destruct (watching
                  (snd (deliver (onReady w) (onFilesChanged w) (batches w)
                          (withWatching true (emit Subscribe s1))))).
      * split; [lia|]. split; [lia|]. split; [intros _; split; lia | reflexivity].
      * split; [lia|]. split; [lia|]. split; [discriminate | intros [_ A]; lia].
  - simpl. rewrite Iw, Ib, Is.
    split; [lia|]. split; [lia|]. split; [discriminate | intros [A _]; lia].
Qed.

(** ** The further properties at concrete runs *)

Lemma gate_asks_once_when_interactive_witness :
  manifestGate (world true (fun _ => true) (fun _ => Resolved []) (Resolved []) [])
    ["src/appsscript.json"]
    (start {| CommandOption.watch := None; CommandOption.force := None |})
  = (Resolved true,
     {| force := Some true;
        trace :=
          [Prompt "Manifest file has been updated. Do you want to push and overwrite?"];
        prompted := 1; pushed := 0; watching := false |}).
Proof.
  apply (gate_asks_once_when_interactive
           (world true (fun _ => true) (fun _ => Resolved []) (Resolved []) [])
           ["src/appsscript.json"]
           (start {| CommandOption.watch := None; CommandOption.force := None |})).
  - exists "src/appsscript.json". split; [left; reflexivity | reflexivity].
  - reflexivity.
  - reflexivity.
Defined.

Lemma cycle_reads_the_batch_for_the_manifest_only_witness :
  onChange (world true (fun _ => false) (fun _ => Resolved []) (Resolved []) [])
    ["src/appsscript.json"; "Code.js"]
    (start {| CommandOption.watch := None; CommandOption.force := None |})
  = onChange (world true (fun _ => false) (fun _ => Resolved []) (Resolved []) [])
      ["util.js"; "util.js"; "appsscript.json"]
      (start {| CommandOption.watch := None; CommandOption.force := None |}).
Proof.
  apply (cycle_reads_the_batch_for_the_manifest_only
           (world true (fun _ => false) (fun _ => Resolved []) (Resolved []) [])
           ["src/appsscript.json"; "Code.js"]
           ["util.js"; "util.js"; "appsscript.json"]
           (start {| CommandOption.watch := None; CommandOption.force := None |})).
  split; intros _.
  - exists "appsscript.json". split; [simpl; auto | reflexivity].
  - exists "src/appsscript.json". split; [simpl; auto | reflexivity].
Defined.

Lemma no_prompt_when_not_interactive_witness :
  count isPrompt
    (trace (snd (command
                   (world false (fun _ => true) (fun _ => Resolved [file "Code.js"])
                      (Resolved [file "appsscript.json"]) [["appsscript.json"]; ["Code.js"]])
                   {| CommandOption.watch := Some true; CommandOption.force := None |})))
  = 0 /\
  prompted
    (snd (command
            (world false (fun _ => true) (fun _ => Resolved [file "Code.js"])
               (Resolved [file "appsscript.json"]) [["appsscript.json"]; ["Code.js"]])
            {| CommandOption.watch := Some true; CommandOption.force := None |}))
  = 0.
Proof.
  apply (no_prompt_when_not_interactive
           (world false (fun _ => true) (fun _ => Resolved [file "Code.js"])
              (Resolved [file "appsscript.json"]) [["appsscript.json"]; ["Code.js"]])
           {| CommandOption.watch := Some true; CommandOption.force := None |}).
  reflexivity.
Defined.

Lemma forced_command_never_asks_nor_stops_witness :
  count isPrompt
    (trace (snd (command
                   (world true (fun _ => false) (fun _ => Rejected "ECONNRESET")
                      (Resolved [file "appsscript.json"]) [["appsscript.json"]])
                   {| CommandOption.watch := Some true; CommandOption.force := Some true |})))
  = 0 /\
  count isStopWatching
    (trace (snd (command
                   (world true (fun _ => false) (fun _ => Rejected "ECONNRESET")
                      (Resolved [file "appsscript.json"]) [["appsscript.json"]])
                   {| CommandOption.watch := Some true; CommandOption.force := Some true |})))
  = 0.
Proof.
  apply (forced_command_never_asks_nor_stops
           (world true (fun _ => false) (fun _ => Rejected "ECONNRESET")
              (Resolved [file "appsscript.json"]) [["appsscript.json"]])
           {| CommandOption.watch := Some true; CommandOption.force := Some true |}).
  reflexivity.
Defined.

Lemma no_subscription_without_watch_witness :
  command
    (world true (fun _ => false) (fun _ => Resolved [file "Code.js"])
       (Resolved [file "Code.js"]) [["Code.js"]])
    {| CommandOption.watch := Some false; CommandOption.force := None |}
  = (Resolved tt,
     {| force := None;
        trace :=
          [Spinner "Pushing files..."; PushCall;
           Log "Pushed one file.."; Log "└─ Code.js"];
        prompted := 0; pushed := 1; watching := false |}).
Proof.
  apply (no_subscription_without_watch
           (world true (fun _ => false) (fun _ => Resolved [file "Code.js"])
              (Resolved [file "Code.js"]) [["Code.js"]])
           {| CommandOption.watch := Some false; CommandOption.force := None |}).
  reflexivity.
Defined.

Lemma first_failure_ends_the_command_witness :
  command
    (world true (fun _ => false) (fun _ => Rejected "ECONNRESET")
       (Resolved [file "Code.js"]) [["Code.js"]])
    {| CommandOption.watch := Some true; CommandOption.force := None |}
  = (Rejected "ECONNRESET",
     {| force := None;
        trace := [Spinner "Pushing files..."; PushCall];
        prompted := 0; pushed := 1; watching := false |}).
Proof.
  apply (first_failure_ends_the_command
           (world true (fun _ => false) (fun _ => Rejected "ECONNRESET")
              (Resolved [file "Code.js"]) [["Code.js"]])
           {| CommandOption.watch := Some true; CommandOption.force := None |}
           "ECONNRESET").
  reflexivity.
Defined.

Lemma accepted_prompt_is_the_last_witness :
  prompted
    (cycles (world true (fun k => Nat.eqb k 1) (fun _ => Resolved []) (Resolved []) [])
       [["appsscript.json"]; ["appsscript.json"]; ["appsscript.json"]]
       (start {| CommandOption.watch := Some true; CommandOption.force := None |}))
  = 2 /\
  force
    (cycles (world true (fun k => Nat.eqb k 1) (fun _ => Resolved []) (Resolved []) [])
       [["appsscript.json"]; ["appsscript.json"]; ["appsscript.json"]]
       (start {| CommandOption.watch := Some true; CommandOption.force := None |}))
  = Some true.
Proof.
  apply (accepted_prompt_is_the_last
           (world true (fun k => Nat.eqb k 1) (fun _ => Resolved []) (Resolved []) [])
           [["appsscript.json"]; ["appsscript.json"]; ["appsscript.json"]]
           (start {| CommandOption.watch := Some true; CommandOption.force := None |})
           1).
  - vm_compute. lia.
  - reflexivity.
Defined.

Lemma forced_watch_session_pushes_every_batch_witness :
  fst (command
         (world false (fun _ => false) (fun _ => Resolved [file "Code.js"])
            (Resolved [file "appsscript.json"]) [["Code.js"]; ["appsscript.json"]])
         {| CommandOption.watch := Some true; CommandOption.force := Some true |})
  = Resolved tt /\
  watching
    (snd (command
            (world false (fun _ => false) (fun _ => Resolved [file "Code.js"])
               (Resolved [file "appsscript.json"]) [["Code.js"]; ["appsscript.json"]])
            {| CommandOption.watch := Some true; CommandOption.force := Some true |}))
  = true /\
  count isPushCall
    (trace (snd (command
                   (world false (fun _ => false) (fun _ => Resolved [file "Code.js"])
                      (Resolved [file "appsscript.json"])
                      [["Code.js"]; ["appsscript.json"]])
                   {| CommandOption.watch := Some true; CommandOption.force := Some true |})))
  = 3.
Proof.
  apply (forced_watch_session_pushes_every_batch
           (world false (fun _ => false) (fun _ => Resolved [file "Code.js"])
              (Resolved [file "appsscript.json"]) [["Code.js"]; ["appsscript.json"]])
           {| CommandOption.watch := Some true; CommandOption.force := Some true |}
           [file "appsscript.json"]).
  - reflexivity.
  - reflexivity.
  - reflexivity.
  - intros k. exists [file "Code.js"]. reflexivity.
Defined.
